(** * Honeywell Lyric entity adapters (custom_components/lyric_my/entity.py)

    Shallow embedding of the four entity classes of [entity.py]:
    [LyricEntity], [LyricDeviceEntity], [LyricAccessoryEntity] and
    [LyricLeakEntity].  Python properties are computations in a small
    state/error monad over a world made of the coordinator's current
    snapshot ([coordinator.data]) and the adapter object ([self]).
    Python exceptions are the [Err] outcomes of [result]. *)

From stdpp Require Import base gmap strings list option.
From Stdlib Require Import ZArith Ascii.

Open Scope string_scope.
Set Warnings "-register-all".

(** ** Python values and exceptions *)

(** The exceptions the property bodies can raise. *)
Inductive exc :=
| KeyError        (* d[k] on a missing key *)
| TypeError       (* len(None), None[...], "str"[...] ... *)
| AttributeError  (* None.device_type *)
| StopIteration.  (* next(...) on an exhausted generator *)

Inductive result (A : Type) :=
| Ok (a : A)
| Err (e : exc).
Arguments Ok {A} a.
Arguments Err {A} e.

(** JSON-like attribute bags of the client library's objects
    ([LyricDevice.attributes] and its nested settings). *)
Inductive pyval :=
| PNone
| PBool (b : bool)
| PInt (z : Z)
| PStr (s : string)
| PList (l : list pyval)
| PDict (kv : list (string * pyval)).

(** Lookup of a key in a Python dict literal (first binding). *)
Fixpoint assoc_get (k : string) (kv : list (string * pyval)) : option pyval :=
  match kv with
  | [] => None
  | (k', v) :: kv' => if bool_decide (k = k') then Some v else assoc_get k kv'
  end.

(** [d.get(k, None)] *)
Definition dict_get (kv : list (string * pyval)) (k : string) : pyval :=
  default PNone (assoc_get k kv).

(** [v[k]] for a string key [k]: only a dict is subscriptable by a string;
    None, bool, int, str and list raise [TypeError]. *)
Definition py_getitem_str (v : pyval) (k : string) : result pyval :=
  match v with
  | PDict kv => match assoc_get k kv with Some x => Ok x | None => Err KeyError end
  | _ => Err TypeError
  end.

(** [d[k]] on a Python dict modelled as a finite map. *)
Definition getitem `{Countable K} {V : Type} (d : gmap K V) (k : K) : result V :=
  match d !! k with Some v => Ok v | None => Err KeyError end.

(** [f"{x}"] for a value of type [str | None]. *)
Definition fmt_opt (o : option string) : string :=
  match o with Some s => s | None => "None" end.

(** [len(x)] for [x : str | None], kept only for whether it raises. *)
Definition py_len (o : option string) : result nat :=
  match o with Some s => Ok (String.length s) | None => Err TypeError end.

(** ** The client library's objects (aiolyric), read-only attribute bags *)

(** Identifier attributes are read with [attributes.get(...)] by the
    client library, so they are [str | None]. *)
Record LyricDevice := {
  mac_id : option string;
  device_id : option string;
  name : option string;
  device_model : option string;
  device_type : option string;
  attributes : list (string * pyval)
}.

Record LyricLocation := {
  location_id : Z;
  devices_dict : gmap (option string) LyricDevice;
  devices : list LyricDevice
}.

(** [LyricAccessory.id] *)
Record LyricAccessory := {
  accessory_ident : string
}.

(** [LyricRoom.id], [LyricRoom.room_name], [LyricRoom.accessories] *)
Record LyricRoom := {
  room_ident : string;
  room_name : option string;
  accessories : list LyricAccessory
}.

(** The [Lyric] client object, i.e. the coordinator's snapshot
    [coordinator.data]. *)
Record Lyric := {
  locations_dict : gmap Z LyricLocation;
  rooms_dict : gmap (option string) (gmap string LyricRoom)
}.

(** [homeassistant.helpers.device_registry.CONNECTION_NETWORK_MAC] *)
Definition CONNECTION_NETWORK_MAC : string := "mac".

(** [homeassistant.helpers.device_registry.DeviceInfo]; optional keys
    absent from the literal are [None]. *)
Record DeviceInfo := {
  identifiers : list (string * option string);
  connections : option (list (string * option string));
  manufacturer : string;
  model : option string;
  di_name : string;
  via_device : option (string * option string)
}.

(** ** A state/error monad for property bodies *)

Definition M (S A : Type) : Type := S -> result A * S.

Definition ret {S A} (a : A) : M S A := fun s => (Ok a, s).

Definition bind {S A B} (m : M S A) (f : A -> M S B) : M S B :=
  fun s => match m s with
           | (Ok a, s') => f a s'
           | (Err e, s') => (Err e, s')
           end.

Definition get {S} : M S S := fun s => (Ok s, s).

(** Raise the outcome of a pure Python expression. *)
Definition lift {S A} (r : result A) : M S A := fun s => (r, s).

Notation "'let!' x ':=' m 'in' k" := (bind m (fun x => k))
  (at level 200, x name, m at level 100, right associativity).

(** A computation that leaves the state it runs on unchanged, whatever
    its outcome: a read-only property. *)
Definition ro {S A} (m : M S A) : Prop := forall s, snd (m s) = s.

(** The world a property reads: the coordinator's current snapshot and
    the adapter object itself. *)
Record World (E : Type) := {
  data : Lyric;
  self : E
}.
Arguments data {E} w.
Arguments self {E} w.

(** ** LyricEntity, LyricDeviceEntity, LyricAccessoryEntity *)
Module Entity.

(** The attributes [LyricEntity.__init__] stores.  The bound methods
    [coordinator.data.update_thermostat] / [update_fan] are modelled by
    their receiver, the snapshot object current at construction. *)
Record LyricEntity := {
  _key : string;
  _location : LyricLocation;
  _mac_id : option string;
  _update_thermostat : Lyric;
  _update_fan : Lyric
}.

Definition LyricEntity_init (coordinator_data : Lyric) (location : LyricLocation)
    (device : LyricDevice) (key : string) : LyricEntity :=
  {| _key := key;
     _location := location;
     _mac_id := mac_id device;
     _update_thermostat := coordinator_data;
     _update_fan := coordinator_data |}.

(** [LyricDeviceEntity] adds no attribute. *)
Definition LyricDeviceEntity := LyricEntity.

(** [LyricAccessoryEntity]: the attributes of its [LyricEntity] part
    plus [_room_id] and [_accessory_id]. *)
Record LyricAccessoryEntity := {
  acc_super : LyricEntity;
  _room_id : string;
  _accessory_id : string
}.

Definition LyricAccessoryEntity_init (coordinator_data : Lyric)
    (location : LyricLocation) (device : LyricDevice) (room : LyricRoom)
    (accessory : LyricAccessory) (key : string) : LyricAccessoryEntity :=
  {| acc_super := LyricEntity_init coordinator_data location device key;
     _room_id := room_ident room;
     _accessory_id := accessory_ident accessory |}.

(** Subclasses of [LyricEntity]: how [self] exposes the inherited
    attributes. *)
Class IsLyricEntity (E : Type) := as_entity : E -> LyricEntity.
#[global] Instance LyricEntity_is : IsLyricEntity LyricEntity := fun e => e.
#[global] Instance LyricAccessoryEntity_is : IsLyricEntity LyricAccessoryEntity :=
  acc_super.

Section Inherited.
Context {E : Type} `{IsLyricEntity E}.

(** [LyricEntity.unique_id] *)
Definition unique_id : M (World E) string :=
  let! w := get in ret (_key (as_entity (self w))).

(** [LyricEntity.location]:
    [self.coordinator.data.locations_dict[self._location.location_id]] *)
Definition location : M (World E) LyricLocation :=
  let! w := get in
  lift (getitem (locations_dict (data w)) (location_id (_location (as_entity (self w))))).

(** [LyricEntity.device]: [self.location.devices_dict[self._mac_id]] *)
Definition device : M (World E) LyricDevice :=
  let! loc := location in
  let! w := get in
  lift (getitem (devices_dict loc) (_mac_id (as_entity (self w)))).

End Inherited.

(** [LyricDeviceEntity.device_info]; [self.device] is evaluated once for
    [model] and once for [name]. *)
Definition device_info : M (World LyricDeviceEntity) DeviceInfo :=
  let! w := get in
  let mac := _mac_id (self w) in
  let! d1 := device in
  let! d2 := device in
  ret {| identifiers := [(CONNECTION_NETWORK_MAC, mac)];
         connections := Some [(CONNECTION_NETWORK_MAC, mac)];
         manufacturer := "Honeywell";
         model := device_model d1;
         di_name := fmt_opt (name d2) ++ " Thermostat";
         via_device := None |}.

(** [LyricAccessoryEntity.room]:
    [self.coordinator.data.rooms_dict[self._mac_id][self._room_id]] *)
Definition room : M (World LyricAccessoryEntity) LyricRoom :=
  let! w := get in
  let! by_room := lift (getitem (rooms_dict (data w)) (_mac_id (acc_super (self w)))) in
  lift (getitem by_room (_room_id (self w))).

(** [next(a for a in accessories if a.id == accessory_id)] *)
Fixpoint next_accessory (accessory_id : string) (l : list LyricAccessory)
    : result LyricAccessory :=
  match l with
  | [] => Err StopIteration
  | a :: l' =>
      if bool_decide (accessory_ident a = accessory_id) then Ok a
      else next_accessory accessory_id l'
  end.

(** [LyricAccessoryEntity.accessory] *)
Definition accessory : M (World LyricAccessoryEntity) LyricAccessory :=
  let! r := room in
  let! w := get in
  lift (next_accessory (_accessory_id (self w)) (accessories r)).

(** [LyricAccessoryEntity.device_info] *)
Definition accessory_device_info : M (World LyricAccessoryEntity) DeviceInfo :=
  let! w := get in
  let mac := _mac_id (acc_super (self w)) in
  let ident := (CONNECTION_NETWORK_MAC ++ "_room_accessory",
                Some (fmt_opt mac ++ "_room" ++ _room_id (self w)
                      ++ "_accessory" ++ _accessory_id (self w))) in
  let! r := room in
  ret {| identifiers := [ident];
         connections := None;
         manufacturer := "Honeywell";
         model := Some "RCHTSENSOR";
         di_name := fmt_opt (room_name r) ++ " Sensor";
         via_device := Some (CONNECTION_NETWORK_MAC, mac) |}.

End Entity.

(** ** LyricLeakEntity *)
Module Leak.

(** The attributes [LyricLeakEntity.__init__] stores. *)
Record LyricLeakEntity := {
  _key : string;
  _location : LyricLocation;
  _device_id : option string
}.

Definition LyricLeakEntity_init (coordinator_data : Lyric) (location : LyricLocation)
    (device : LyricDevice) (key : string) : LyricLeakEntity :=
  {| _key := key; _location := location; _device_id := device_id device |}.

(** [LyricLeakEntity.unique_id] *)
Definition unique_id : M (World LyricLeakEntity) string :=
  let! w := get in ret (_key (self w)).

(** [LyricLeakEntity.location] *)
Definition location : M (World LyricLeakEntity) LyricLocation :=
  let! w := get in
  lift (getitem (locations_dict (data w)) (location_id (_location (self w)))).

(** The [for dev in self.location.devices] loop of [device].  On a
    mismatch the arguments of the debug call are evaluated in order:
    [dev.device_id], [len(dev.device_id)], [self._device_id],
    [len(self._device_id)]; the remaining two debug calls
    ([dev], [dev.attributes.keys()]) cannot raise.  Falling off the end of
    the loop returns [None]. *)
Fixpoint scan (did : option string) (devs : list LyricDevice)
    : result (option LyricDevice) :=
  match devs with
  | [] => Ok None
  | dev :: rest =>
      if bool_decide (device_id dev = did) then Ok (Some dev)
      else match py_len (device_id dev) with
           | Err e => Err e
           | Ok _ => match py_len did with
                     | Err e => Err e
                     | Ok _ => scan did rest
                     end
           end
  end.

(** [LyricLeakEntity.device].  A [LyricDevice] defines neither [__bool__]
    nor [__len__], so [if lookup:] holds exactly when the key is present. *)
Definition device : M (World LyricLeakEntity) (option LyricDevice) :=
  let! loc := location in
  let! w := get in
  let did := _device_id (self w) in
  match devices_dict loc !! did with
  | Some _ =>
      let! loc' := location in
      let! d := lift (getitem (devices_dict loc') did) in
      ret (Some d)
  | None =>
      let! loc1 := location in
      let! _n := lift (Ok (length (devices loc1))) in
      let! loc2 := location in
      lift (scan did (devices loc2))
  end.

(** Attribute access on the value of [self.device]: [None.x] raises. *)
Definition deref (o : option LyricDevice) : result LyricDevice :=
  match o with Some d => Ok d | None => Err AttributeError end.

Section DeviceInfo.
(** [const.DOMAIN] of the integration. *)
Variable DOMAIN : string.
(** [str(v)], the conversion an f-string applies to a value. *)
Variable py_str : pyval -> string.

(** [LyricLeakEntity.device_info]: the dict literal's values in order,
    [model=self.device.device_type], then the f-string's two fields. *)
Definition device_info : M (World LyricLeakEntity) DeviceInfo :=
  let! w := get in
  let ident := (DOMAIN, _device_id (self w)) in
  let! o1 := device in
  let! d1 := lift (deref o1) in
  let! o2 := device in
  let! d2 := lift (deref o2) in
  let! udn := lift (py_getitem_str (dict_get (attributes d2) "deviceSettings")
                                   "userDefinedName") in
  let! o3 := device in
  let! d3 := lift (deref o3) in
  ret {| identifiers := [ident];
         connections := None;
         manufacturer := "Honeywell";
         model := device_type d1;
         di_name := py_str udn ++ " " ++ fmt_opt (device_type d3);
         via_device := None |}.

End DeviceInfo.

End Leak.

(** ** Sample snapshots *)
Module Samples.

Definition dev_office : LyricDevice :=
  {| mac_id := Some "AA:BB"; device_id := Some "LCC-1"; name := Some "Office";
     device_model := Some "T6"; device_type := Some "Thermostat";
     attributes := [] |}.

Definition acc1 : LyricAccessory := {| accessory_ident := "a1" |}.
Definition acc2 : LyricAccessory := {| accessory_ident := "a2" |}.
Definition acc3 : LyricAccessory := {| accessory_ident := "a3" |}.

Definition kitchen : LyricRoom :=
  {| room_ident := "1"; room_name := Some "Kitchen"; accessories := [acc1; acc2] |}.

Definition loc1 : LyricLocation :=
  {| location_id := 1%Z; devices_dict := {[ Some "AA:BB" := dev_office ]};
     devices := [dev_office] |}.

(** The same location after a refresh in which the thermostat is gone. *)
Definition loc1_refreshed : LyricLocation :=
  {| location_id := 1%Z; devices_dict := ∅; devices := [] |}.

Definition snap1 : Lyric :=
  {| locations_dict := {[ 1%Z := loc1 ]};
     rooms_dict := {[ Some "AA:BB" := {[ "1" := kitchen ]} ]} |}.

Definition snap2 : Lyric :=
  {| locations_dict := {[ 1%Z := loc1_refreshed ]}; rooms_dict := ∅ |}.

Definition thermostat : Entity.LyricEntity :=
  Entity.LyricEntity_init snap1 loc1 dev_office "AA:BB_key".

Definition sensor (a : LyricAccessory) : Entity.LyricAccessoryEntity :=
  Entity.LyricAccessoryEntity_init snap1 loc1 dev_office kitchen a "AA:BB_1_key".

(** A device whose attribute bag has no "deviceID" (so [device_id] is
    [None]), filed under its MAC id as the client library files devices. *)
Definition dev_no_device_id : LyricDevice :=
  {| mac_id := Some "CC:DD"; device_id := None; name := Some "Hall";
     device_model := Some "T6"; device_type := Some "Thermostat";
     attributes := [("macID", PStr "CC:DD")] |}.

(** Water leak detectors: a device id, no MAC id. *)
Definition leak_attrs (udn : string) : list (string * pyval) :=
  [("deviceID", PStr "d1");
   ("deviceSettings", PDict [("userDefinedName", PStr udn)])].

Definition dev_leak : LyricDevice :=
  {| mac_id := None; device_id := Some "d1"; name := None; device_model := None;
     device_type := Some "Water Leak Detector"; attributes := leak_attrs "Basement" |}.

Definition dev_leak_twin : LyricDevice :=
  {| mac_id := None; device_id := Some "d1"; name := None; device_model := None;
     device_type := Some "Water Leak Detector"; attributes := leak_attrs "Laundry" |}.

(** A leak detector whose attribute bag has no "deviceSettings". *)
Definition dev_leak_bare : LyricDevice :=
  {| mac_id := None; device_id := Some "d1"; name := None; device_model := None;
     device_type := Some "Water Leak Detector"; attributes := [("deviceID", PStr "d1")] |}.

Definition leak_location (devs : list LyricDevice) : LyricLocation :=
  {| location_id := 7%Z; devices_dict := {[ Some "CC:DD" := dev_no_device_id ]};
     devices := devs |}.

Definition leak_snap (devs : list LyricDevice) : Lyric :=
  {| locations_dict := {[ 7%Z := leak_location devs ]}; rooms_dict := ∅ |}.

Definition leak_sensor : Leak.LyricLeakEntity :=
  Leak.LyricLeakEntity_init (leak_snap [dev_leak]) (leak_location [dev_leak]) dev_leak "d1_leak".

Definition leak_world (devs : list LyricDevice) : World Leak.LyricLeakEntity :=
  {| data := leak_snap devs; self := leak_sensor |}.

(** [str(v)] on the values used in the samples. *)
Definition sample_str (v : pyval) : string :=
  match v with PStr s => s | _ => "" end.

End Samples.

(** ** The monad: read-only computations *)

Lemma ro_ret {S A} (a : A) : ro (S:=S) (ret a).
Proof. intros s. reflexivity. Qed.

Lemma ro_get {S} : ro (S:=S) get.
Proof. intros s. reflexivity. Qed.

Lemma ro_lift {S A} (r : result A) : ro (S:=S) (lift r).
Proof. intros s. reflexivity. Qed.

Lemma ro_bind {S A B} (m : M S A) (f : A -> M S B) :
  ro m -> (forall a, ro (f a)) -> ro (bind m f).
Proof.
  intros Hm Hf s. unfold bind.
  specialize (Hm s). destruct (m s) as [[a|e] s'] eqn:E; simpl in *; subst.
  - apply Hf.
  - reflexivity.
Qed.

Lemma ro_run {S A} (m : M S A) (s : S) : ro m -> m s = (fst (m s), s).
Proof.
  intros Hm. specialize (Hm s).
  destruct (m s) as [r s']. simpl in *. subst. reflexivity.
Qed.

Lemma bind_ok {S A B} (m : M S A) (f : A -> M S B) (s : S) (a : A) :
  m s = (Ok a, s) -> bind m f s = f a s.
Proof. unfold bind. intros ->. reflexivity. Qed.

Lemma bind_err {S A B} (m : M S A) (f : A -> M S B) (s : S) (e : exc) :
  m s = (Err e, s) -> bind m f s = (Err e, s).
Proof. unfold bind. intros ->. reflexivity. Qed.

Lemma bind_get {S B} (f : S -> M S B) (s : S) : bind get f s = f s s.
Proof. reflexivity. Qed.

Create HintDb ro_db.
#[global] Hint Resolve ro_ret ro_get ro_lift : ro_db.

(** Split a property body into its reads. *)
Ltac solve_ro :=
  repeat (intros; match goal with
    | |- ro (bind _ _) => apply ro_bind
    | |- ro (match ?x with _ => _ end) => destruct x
    | |- ro _ => solve [eauto with ro_db]
    end).

Lemma location_ro {E} `{Entity.IsLyricEntity E} : ro (Entity.location (E:=E)).
Proof. unfold Entity.location. solve_ro. Qed.
#[global] Hint Resolve location_ro : ro_db.

Lemma device_ro {E} `{Entity.IsLyricEntity E} : ro (Entity.device (E:=E)).
Proof. unfold Entity.device. solve_ro. Qed.
#[global] Hint Resolve device_ro : ro_db.

Lemma unique_id_ro {E} `{Entity.IsLyricEntity E} : ro (Entity.unique_id (E:=E)).
Proof. unfold Entity.unique_id. solve_ro. Qed.
#[global] Hint Resolve unique_id_ro : ro_db.

Lemma device_info_ro : ro Entity.device_info.
Proof. unfold Entity.device_info. solve_ro. Qed.

Lemma room_ro : ro Entity.room.
Proof. unfold Entity.room. solve_ro. Qed.
#[global] Hint Resolve room_ro : ro_db.

Lemma accessory_ro : ro Entity.accessory.
Proof. unfold Entity.accessory. solve_ro. Qed.

Lemma accessory_device_info_ro : ro Entity.accessory_device_info.
Proof. unfold Entity.accessory_device_info. solve_ro. Qed.

Lemma leak_unique_id_ro : ro Leak.unique_id.
Proof. unfold Leak.unique_id. solve_ro. Qed.

Lemma leak_location_ro : ro Leak.location.
Proof. unfold Leak.location. solve_ro. Qed.
#[global] Hint Resolve leak_location_ro : ro_db.

Lemma leak_device_ro : ro Leak.device.
Proof. unfold Leak.device. solve_ro. Qed.
#[global] Hint Resolve leak_device_ro : ro_db.

Lemma leak_device_info_ro dom str_ : ro (Leak.device_info dom str_).
Proof. unfold Leak.device_info. solve_ro. Qed.

(** ** Sample runs *)

Example thermostat_device_snap1 :
  fst (Entity.device {| data := Samples.snap1; self := Samples.thermostat |})
  = Ok Samples.dev_office.
Proof. vm_compute. reflexivity. Qed.

Example thermostat_device_snap2 :
  fst (Entity.device {| data := Samples.snap2; self := Samples.thermostat |})
  = Err KeyError.
Proof. vm_compute. reflexivity. Qed.

Example thermostat_device_info_snap1 :
  fst (Entity.device_info {| data := Samples.snap1; self := Samples.thermostat |})
  = Ok {| identifiers := [("mac", Some "AA:BB")];
          connections := Some [("mac", Some "AA:BB")]; manufacturer := "Honeywell";
          model := Some "T6"; di_name := "Office Thermostat"; via_device := None |}.
Proof. vm_compute. reflexivity. Qed.

Example sensor_device_info_snap1 :
  fst (Entity.accessory_device_info {| data := Samples.snap1; self := Samples.sensor Samples.acc2 |})
  = Ok {| identifiers := [("mac_room_accessory", Some "AA:BB_room1_accessorya2")];
          connections := None; manufacturer := "Honeywell"; model := Some "RCHTSENSOR";
          di_name := "Kitchen Sensor"; via_device := Some ("mac", Some "AA:BB") |}.
Proof. vm_compute. reflexivity. Qed.

Example sensor_accessory_a2 :
  fst (Entity.accessory {| data := Samples.snap1; self := Samples.sensor Samples.acc2 |})
  = Ok Samples.acc2.
Proof. vm_compute. reflexivity. Qed.

Example sensor_accessory_a3 :
  fst (Entity.accessory {| data := Samples.snap1; self := Samples.sensor Samples.acc3 |})
  = Err StopIteration.
Proof. vm_compute. reflexivity. Qed.

(** ** Evaluating the property bodies *)

Lemma run_ok {S A} (m : M S A) (s : S) (a : A) :
  ro m -> fst (m s) = Ok a -> m s = (Ok a, s).
Proof. intros Hm Ha. rewrite (ro_run m s Hm), Ha. reflexivity. Qed.

Lemma run_err {S A} (m : M S A) (s : S) (e : exc) :
  ro m -> fst (m s) = Err e -> m s = (Err e, s).
Proof. intros Hm Ha. rewrite (ro_run m s Hm), Ha. reflexivity. Qed.

Lemma location_eval {E} `{Entity.IsLyricEntity E} (w : World E) :
  Entity.location w
  = (getitem (locations_dict (data w))
       (location_id (Entity._location (Entity.as_entity (self w)))), w).
Proof. reflexivity. Qed.

Lemma device_eval {E} `{Entity.IsLyricEntity E} (w : World E) :
  Entity.device w
  = (match getitem (locations_dict (data w))
             (location_id (Entity._location (Entity.as_entity (self w)))) with
     | Ok L => getitem (devices_dict L) (Entity._mac_id (Entity.as_entity (self w)))
     | Err e => Err e
     end, w).
Proof.
  unfold Entity.device, bind. rewrite location_eval.
  destruct (getitem _ _); reflexivity.
Qed.

Lemma room_eval (w : World Entity.LyricAccessoryEntity) :
  Entity.room w
  = (match getitem (rooms_dict (data w)) (Entity._mac_id (Entity.acc_super (self w))) with
     | Ok by_room => getitem by_room (Entity._room_id (self w))
     | Err e => Err e
     end, w).
Proof.
  unfold Entity.room. rewrite bind_get. unfold bind, lift.
  destruct (getitem _ _); reflexivity.
Qed.

(** ** Claims *)

(** C5: a base adapter's [location] resolves the stored location id in
    the current snapshot and raises [KeyError] when it is absent; [device]
    resolves the stored MAC id in that location's [devices_dict] and
    raises when it is absent.  So once a refreshed snapshot no longer
    holds the device, [device] raises instead of returning the device an
    earlier snapshot gave. *)
Theorem base_location_device_resolution {E} `{Entity.IsLyricEntity E} (e : E) :
  let lid := location_id (Entity._location (Entity.as_entity e)) in
  let mac := Entity._mac_id (Entity.as_entity e) in
  (forall d : Lyric,
     (locations_dict d !! lid = None ->
        fst (Entity.location {| data := d; self := e |}) = Err KeyError /\
        fst (Entity.device {| data := d; self := e |}) = Err KeyError) /\
     (forall L, locations_dict d !! lid = Some L ->
        fst (Entity.location {| data := d; self := e |}) = Ok L) /\
     (forall L, locations_dict d !! lid = Some L -> devices_dict L !! mac = None ->
        fst (Entity.device {| data := d; self := e |}) = Err KeyError) /\
     (forall L D, locations_dict d !! lid = Some L -> devices_dict L !! mac = Some D ->
        fst (Entity.device {| data := d; self := e |}) = Ok D)) /\
  (forall (d1 d2 : Lyric) (D : LyricDevice),
     fst (Entity.device {| data := d1; self := e |}) = Ok D ->
     (forall L, locations_dict d2 !! lid = Some L -> devices_dict L !! mac = None) ->
     fst (Entity.device {| data := d2; self := e |}) = Err KeyError).
Proof.
  intros lid mac. split.
  - intros d. repeat split; intros;
      rewrite ?location_eval, ?device_eval; simpl; unfold getitem;
      fold lid mac; repeat match goal with H : _ !! _ = _ |- _ => rewrite H end;
      reflexivity.
  - intros d1 d2 D _ Hgone. rewrite device_eval. simpl. unfold getitem. fold lid mac.
    destruct (locations_dict d2 !! lid) as [L|] eqn:HL; [|reflexivity].
    rewrite (Hgone L eq_refl). reflexivity.
Qed.

(** C7: [unique_id] of every constructed adapter (base, device,
    accessory, leak) is exactly the key given at construction, in every
    snapshot the coordinator may hold when it is read. *)
Theorem unique_id_is_construction_key (coord : Lyric) (L : LyricLocation)
    (D : LyricDevice) (R : LyricRoom) (A : LyricAccessory) (k : string) (d : Lyric) :
  fst (Entity.unique_id {| data := d; self := Entity.LyricEntity_init coord L D k |}) = Ok k /\
  fst (Entity.unique_id (E:=Entity.LyricDeviceEntity)
         {| data := d; self := Entity.LyricEntity_init coord L D k |}) = Ok k /\
  fst (Entity.unique_id
         {| data := d; self := Entity.LyricAccessoryEntity_init coord L D R A k |}) = Ok k /\
  fst (Leak.unique_id {| data := d; self := Leak.LyricLeakEntity_init coord L D k |}) = Ok k.
Proof. repeat split. Qed.

(** C4: when [device] resolves to [D], [LyricDeviceEntity.device_info]
    has identifiers and connections [{(CONNECTION_NETWORK_MAC, mac)}] for
    the stored MAC id, manufacturer "Honeywell", model [D.device_model]
    and name "{D.name} Thermostat". *)
Theorem device_entity_device_info (w : World Entity.LyricDeviceEntity) (D : LyricDevice) :
  fst (Entity.device w) = Ok D ->
  fst (Entity.device_info w)
  = Ok {| identifiers := [(CONNECTION_NETWORK_MAC, Entity._mac_id (self w))];
          connections := Some [(CONNECTION_NETWORK_MAC, Entity._mac_id (self w))];
          manufacturer := "Honeywell";
          model := device_model D;
          di_name := fmt_opt (name D) ++ " Thermostat";
          via_device := None |}.
Proof.
  intros HD. pose proof (run_ok _ w D device_ro HD) as Hrun.
  unfold Entity.device_info. rewrite bind_get.
  rewrite (bind_ok _ _ _ _ Hrun), (bind_ok _ _ _ _ Hrun). reflexivity.
Qed.

Lemma device_entity_device_info_witness :
  fst (Entity.device {| data := Samples.snap1; self := Samples.thermostat |})
  = Ok Samples.dev_office /\
  fst (Entity.device_info {| data := Samples.snap1; self := Samples.thermostat |})
  = Ok {| identifiers := [(CONNECTION_NETWORK_MAC, Some "AA:BB")];
          connections := Some [(CONNECTION_NETWORK_MAC, Some "AA:BB")];
          manufacturer := "Honeywell"; model := Some "T6";
          di_name := fmt_opt (Some "Office") ++ " Thermostat"; via_device := None |}.
Proof.
  assert (H : fst (Entity.device {| data := Samples.snap1; self := Samples.thermostat |})
              = Ok Samples.dev_office) by (vm_compute; reflexivity).
  split; [exact H|].
  exact (device_entity_device_info {| data := Samples.snap1; self := Samples.thermostat |}
           Samples.dev_office H).
Defined.

Lemma base_location_device_resolution_witness :
  fst (Entity.device {| data := Samples.snap1; self := Samples.thermostat |})
  = Ok Samples.dev_office /\
  fst (Entity.device {| data := Samples.snap2; self := Samples.thermostat |}) = Err KeyError.
Proof.
  assert (H1 : fst (Entity.device {| data := Samples.snap1; self := Samples.thermostat |})
               = Ok Samples.dev_office) by (vm_compute; reflexivity).
  split; [exact H1|].
  apply (proj2 (base_location_device_resolution Samples.thermostat)
           Samples.snap1 Samples.snap2 Samples.dev_office H1).
  intros L HL. vm_compute in HL. injection HL as <-. reflexivity.
Defined.

(** C3, amended: when the room resolves in the current snapshot
    ([rooms_dict[m][r]] present), [LyricAccessoryEntity.device_info] has
    the single identifier (CONNECTION_NETWORK_MAC ++ "_room_accessory",
    "{m}_room{r}_accessory{a}"), manufacturer "Honeywell", model
    "RCHTSENSOR", name "{room name} Sensor" and via_device
    (CONNECTION_NETWORK_MAC, m); when the room is absent it raises
    [KeyError]. *)
Theorem accessory_device_info_descriptor (w : World Entity.LyricAccessoryEntity) :
  let m := Entity._mac_id (Entity.acc_super (self w)) in
  let r := Entity._room_id (self w) in
  let a := Entity._accessory_id (self w) in
  (forall (by_room : gmap string LyricRoom) (R : LyricRoom),
     rooms_dict (data w) !! m = Some by_room -> by_room !! r = Some R ->
     fst (Entity.accessory_device_info w)
     = Ok {| identifiers := [(CONNECTION_NETWORK_MAC ++ "_room_accessory",
                              Some (fmt_opt m ++ "_room" ++ r ++ "_accessory" ++ a))];
             connections := None;
             manufacturer := "Honeywell";
             model := Some "RCHTSENSOR";
             di_name := fmt_opt (room_name R) ++ " Sensor";
             via_device := Some (CONNECTION_NETWORK_MAC, m) |}) /\
  ((forall by_room : gmap string LyricRoom,
      rooms_dict (data w) !! m = Some by_room -> by_room !! r = None) ->
   fst (Entity.accessory_device_info w) = Err KeyError).
Proof.
  intros m r a. unfold Entity.accessory_device_info. rewrite bind_get. split.
  - intros by_room R Hm Hr.
    assert (Hroom : Entity.room w = (Ok R, w)).
    { rewrite room_eval. unfold getitem. fold m r. rewrite Hm, Hr. reflexivity. }
    rewrite (bind_ok _ _ _ _ Hroom). reflexivity.
  - intros Hgone.
    assert (Hroom : Entity.room w = (Err KeyError, w)).
    { rewrite room_eval. unfold getitem. fold m r.
      destruct (rooms_dict (data w) !! m) as [by_room|] eqn:Hm; [|reflexivity].
      rewrite (Hgone by_room eq_refl). reflexivity. }
    rewrite (bind_err _ _ _ _ Hroom). reflexivity.
Qed.

Lemma accessory_device_info_descriptor_witness :
  fst (Entity.accessory_device_info {| data := Samples.snap1; self := Samples.sensor Samples.acc2 |})
  = Ok {| identifiers := [(CONNECTION_NETWORK_MAC ++ "_room_accessory",
                           Some (fmt_opt (Some "AA:BB") ++ "_room" ++ "1" ++ "_accessory" ++ "a2"))];
          connections := None; manufacturer := "Honeywell"; model := Some "RCHTSENSOR";
          di_name := fmt_opt (Some "Kitchen") ++ " Sensor";
          via_device := Some (CONNECTION_NETWORK_MAC, Some "AA:BB") |} /\
  fst (Entity.accessory_device_info {| data := Samples.snap2; self := Samples.sensor Samples.acc2 |})
  = Err KeyError.
Proof.
  split.
  - apply (proj1 (accessory_device_info_descriptor
                    {| data := Samples.snap1; self := Samples.sensor Samples.acc2 |})
             {[ "1" := Samples.kitchen ]} Samples.kitchen); vm_compute; reflexivity.
  - apply (proj2 (accessory_device_info_descriptor
                    {| data := Samples.snap2; self := Samples.sensor Samples.acc2 |})).
    intros by_room H. vm_compute in H. discriminate H.
Defined.

(** C3 as stated fails: an accessory adapter whose room is missing from
    the current snapshot gets [KeyError] from [device_info], not a
    descriptor. *)
Lemma accessory_device_info_room_missing :
  fst (Entity.accessory_device_info {| data := Samples.snap2; self := Samples.sensor Samples.acc2 |})
  = Err KeyError.
Proof. vm_compute. reflexivity. Qed.

(** ** The accessory scan *)

Lemma next_accessory_ok (aid : string) (l : list LyricAccessory) (a : LyricAccessory) :
  Entity.next_accessory aid l = Ok a ->
  accessory_ident a = aid /\
  exists pre post, l = (pre ++ a :: post)%list /\ Forall (fun b => accessory_ident b <> aid) pre.
Proof.
  induction l as [|b l IH]; simpl; [discriminate|].
  case_bool_decide as Hb.
  - intros [= <-]. split; [exact Hb|]. exists [], l. split; [reflexivity|constructor].
  - intros Hl. destruct (IH Hl) as [Ha [pre [post [-> Hpre]]]].
    split; [exact Ha|]. exists (b :: pre), post. split; [reflexivity|].
    constructor; assumption.
Qed.

Lemma next_accessory_no_match (aid : string) (l : list LyricAccessory) :
  (forall b, In b l -> accessory_ident b <> aid) ->
  Entity.next_accessory aid l = Err StopIteration.
Proof.
  induction l as [|b l IH]; simpl; intros Hno; [reflexivity|].
  case_bool_decide as Hb.
  - exfalso. exact (Hno b (or_introl eq_refl) Hb).
  - apply IH. intros c Hc. apply Hno. right. exact Hc.
Qed.

Lemma next_accessory_match (aid : string) (l : list LyricAccessory) :
  (exists b, In b l /\ accessory_ident b = aid) ->
  exists a, Entity.next_accessory aid l = Ok a.
Proof.
  induction l as [|b l IH]; simpl; intros [c [Hc Hid]]; [contradiction|].
  case_bool_decide as Hb; [eauto|].
  destruct Hc as [->|Hc]; [contradiction|]. apply IH. eauto.
Qed.

Lemma accessory_eval (w : World Entity.LyricAccessoryEntity) (R : LyricRoom) :
  fst (Entity.room w) = Ok R ->
  Entity.accessory w = (Entity.next_accessory (Entity._accessory_id (self w)) (accessories R), w).
Proof.
  intros HR. unfold Entity.accessory.
  rewrite (bind_ok _ _ _ _ (run_ok _ w R room_ro HR)). reflexivity.
Qed.

(** C6: with the room resolved to [R], [accessory] returns an accessory
    of [R.accessories] whose id is the stored accessory id (the first such
    one in list order), always returns one when one matches, and raises
    [StopIteration] when none matches. *)
Theorem accessory_linear_scan (w : World Entity.LyricAccessoryEntity) (R : LyricRoom) :
  fst (Entity.room w) = Ok R ->
  let aid := Entity._accessory_id (self w) in
  (forall a, fst (Entity.accessory w) = Ok a ->
     accessory_ident a = aid /\
     exists pre post, accessories R = (pre ++ a :: post)%list /\
                      Forall (fun b => accessory_ident b <> aid) pre) /\
  ((exists b, In b (accessories R) /\ accessory_ident b = aid) ->
     exists a, fst (Entity.accessory w) = Ok a) /\
  ((forall b, In b (accessories R) -> accessory_ident b <> aid) ->
     fst (Entity.accessory w) = Err StopIteration).
Proof.
  intros HR aid. rewrite (accessory_eval w R HR). simpl. fold aid.
  split; [|split].
  - apply next_accessory_ok.
  - apply next_accessory_match.
  - apply next_accessory_no_match.
Qed.

Lemma accessory_linear_scan_witness :
  fst (Entity.accessory {| data := Samples.snap1; self := Samples.sensor Samples.acc3 |})
  = Err StopIteration /\
  accessory_ident Samples.acc2 = "a2".
Proof.
  assert (HR : fst (Entity.room {| data := Samples.snap1; self := Samples.sensor Samples.acc3 |})
               = Ok Samples.kitchen) by (vm_compute; reflexivity).
  split; [|reflexivity].
  apply (proj2 (proj2 (accessory_linear_scan _ _ HR))).
  intros b Hb. simpl in Hb.
  destruct Hb as [<-|[<-|[]]]; vm_compute; discriminate.
Defined.

(** ** Sample runs of the leak adapter *)

Example leak_device_found_by_scan :
  fst (Leak.device (Samples.leak_world [Samples.dev_leak])) = Ok (Some Samples.dev_leak).
Proof. vm_compute. reflexivity. Qed.

Example leak_device_absent :
  fst (Leak.device (Samples.leak_world [])) = Ok None.
Proof. vm_compute. reflexivity. Qed.

Example leak_device_info_sample :
  fst (Leak.device_info "lyric" Samples.sample_str (Samples.leak_world [Samples.dev_leak]))
  = Ok {| identifiers := [("lyric", Some "d1")]; connections := None;
          manufacturer := "Honeywell"; model := Some "Water Leak Detector";
          di_name := "Basement Water Leak Detector"; via_device := None |}.
Proof. vm_compute. reflexivity. Qed.

Example leak_device_info_bare :
  fst (Leak.device_info "lyric" Samples.sample_str (Samples.leak_world [Samples.dev_leak_bare]))
  = Err TypeError.
Proof. vm_compute. reflexivity. Qed.

Example leak_device_scan_missing_id :
  fst (Leak.device (Samples.leak_world [Samples.dev_no_device_id; Samples.dev_leak]))
  = Err TypeError.
Proof. vm_compute. reflexivity. Qed.

(** ** The leak device lookup *)

Lemma leak_device_eval (w : World Leak.LyricLeakEntity) :
  Leak.device w
  = (match getitem (locations_dict (data w)) (location_id (Leak._location (self w))) with
     | Err e => Err e
     | Ok L => match devices_dict L !! Leak._device_id (self w) with
               | Some D => Ok (Some D)
               | None => Leak.scan (Leak._device_id (self w)) (devices L)
               end
     end, w).
Proof.
  unfold Leak.device, Leak.location, bind, get, lift, ret, getitem. simpl.
  destruct (locations_dict (data w) !! _) as [L|] eqn:HL; [|reflexivity].
  destruct (devices_dict L !! _) eqn:HD; simpl; rewrite HL; [rewrite HD|]; reflexivity.
Qed.

(** When every device of the list and the stored id carry a device id,
    the fallback scan never raises: it returns the first device of the
    list whose id is the stored one, or [None]. *)
Lemma scan_find (did : option string) (devs : list LyricDevice) :
  did <> None -> Forall (fun d => device_id d <> None) devs ->
  Leak.scan did devs = Ok (List.find (fun d => bool_decide (device_id d = did)) devs).
Proof.
  intros Hdid. induction devs as [|d devs IH]; intros Hall; simpl; [reflexivity|].
  inversion Hall as [|? ? Hd Hrest]; subst.
  case_bool_decide as Hm; [reflexivity|].
  destruct (device_id d) as [s|]; [|contradiction].
  destruct did as [t|]; [|contradiction]. simpl. exact (IH Hrest).
Qed.

(** A [None] device id met before a match makes the scan raise. *)
Lemma scan_missing_id (did : option string) (pre post : list LyricDevice) (d : LyricDevice) :
  did <> None -> Forall (fun b => device_id b <> did) pre -> device_id d = None ->
  Leak.scan did (pre ++ d :: post)%list = Err TypeError.
Proof.
  intros Hdid Hpre Hd. induction Hpre as [|b pre Hb Hpre IH]; simpl.
  - rewrite Hd. rewrite bool_decide_false by congruence. reflexivity.
  - rewrite bool_decide_false by exact Hb.
    destruct (device_id b); [|reflexivity].
    destruct did; [exact IH|contradiction].
Qed.

(** The leak adapter's [device] when its location resolves to [L]: the
    keyed hit, else the first device of [L.devices] with the stored id,
    else [None], as long as every device id involved is present. *)
Lemma leak_device_when_ids_present (w : World Leak.LyricLeakEntity) (L : LyricLocation) :
  locations_dict (data w) !! location_id (Leak._location (self w)) = Some L ->
  Leak._device_id (self w) <> None ->
  Forall (fun d => device_id d <> None) (devices L) ->
  fst (Leak.device w)
  = match devices_dict L !! Leak._device_id (self w) with
    | Some D => Ok (Some D)
    | None => Ok (List.find (fun d => bool_decide (device_id d = Leak._device_id (self w)))
                            (devices L))
    end.
Proof.
  intros HL Hdid Hall. rewrite leak_device_eval. simpl. unfold getitem. rewrite HL.
  destruct (devices_dict L !! _); [reflexivity|]. apply scan_find; assumption.
Qed.

(** C1 (code bug): the fallback scan's debug call evaluates
    [len(dev.device_id)] for every non-matching device; for a device
    whose attribute bag has no "deviceID" this is [len(None)] and raises
    [TypeError], so [device] raises instead of yielding [None] (first
    run: no match), and raises even when a later device matches (second
    run). *)
Lemma leak_device_scan_len_none :
  fst (Leak.device (Samples.leak_world [Samples.dev_no_device_id])) = Err TypeError /\
  device_id Samples.dev_leak = Leak._device_id Samples.leak_sensor /\
  fst (Leak.device (Samples.leak_world [Samples.dev_no_device_id; Samples.dev_leak]))
  = Err TypeError.
Proof.
  split; [|split].
  - vm_compute. reflexivity.
  - reflexivity.
  - rewrite leak_device_eval. vm_compute. reflexivity.
Qed.

(** C10 (code bug, same defect as C1): with two devices carrying the
    stored id behind a device without a device id, the scan raises
    [TypeError] instead of returning the first of the two. *)
Lemma leak_device_duplicates_len_none :
  devices_dict (Samples.leak_location []) !! Leak._device_id Samples.leak_sensor = None /\
  fst (Leak.device (Samples.leak_world
         [Samples.dev_no_device_id; Samples.dev_leak; Samples.dev_leak_twin]))
  = Err TypeError.
Proof.
  split; [vm_compute; reflexivity|].
  rewrite leak_device_eval. simpl. unfold getitem.
  change (locations_dict (Samples.leak_snap _) !! _)
    with (Some (Samples.leak_location
                  [Samples.dev_no_device_id; Samples.dev_leak; Samples.dev_leak_twin])).
  vm_compute. reflexivity.
Qed.

(** ** The leak descriptor *)

Lemma py_getitem_str_cases (v : pyval) (k : string) :
  (exists kv x, v = PDict kv /\ assoc_get k kv = Some x /\ py_getitem_str v k = Ok x) \/
  ((forall kv, v = PDict kv -> assoc_get k kv = None) /\
   (py_getitem_str v k = Err TypeError \/ py_getitem_str v k = Err KeyError)).
Proof.
  destruct v as [| | | |l|kv]; try (right; split; [discriminate|left; reflexivity]).
  simpl. destruct (assoc_get k kv) as [x|] eqn:Hx.
  - left. exists kv, x. auto.
  - right. split; [intros kv' [= <-]; exact Hx|right; reflexivity].
Qed.

(** C2: when the leak adapter's [device] resolves to [D], [device_info]
    has name [str(D.attributes["deviceSettings"]["userDefinedName"]) ++ " "
    ++ D.device_type] when that nested value exists; when
    [D.attributes] has no "deviceSettings" dict holding a
    "userDefinedName" key, [device_info] raises ([TypeError] or
    [KeyError]). *)
Theorem leak_device_info_name (DOMAIN : string) (py_str : pyval -> string)
    (w : World Leak.LyricLeakEntity) (D : LyricDevice) :
  fst (Leak.device w) = Ok (Some D) ->
  (forall kv udn,
     assoc_get "deviceSettings" (attributes D) = Some (PDict kv) ->
     assoc_get "userDefinedName" kv = Some udn ->
     exists di, fst (Leak.device_info DOMAIN py_str w) = Ok di /\
                di_name di = py_str udn ++ " " ++ fmt_opt (device_type D)) /\
  ((forall kv, assoc_get "deviceSettings" (attributes D) = Some (PDict kv) ->
               assoc_get "userDefinedName" kv = None) ->
   fst (Leak.device_info DOMAIN py_str w) = Err TypeError \/
   fst (Leak.device_info DOMAIN py_str w) = Err KeyError).
Proof.
  intros HD. pose proof (run_ok _ w _ leak_device_ro HD) as Hrun.
  unfold Leak.device_info. rewrite bind_get, (bind_ok _ _ _ _ Hrun).
  rewrite (bind_ok (lift (Leak.deref (Some D))) _ w D eq_refl), (bind_ok _ _ _ _ Hrun),
    (bind_ok (lift (Leak.deref (Some D))) _ w D eq_refl).
  destruct (py_getitem_str_cases (dict_get (attributes D) "deviceSettings") "userDefinedName")
    as [[kv [x [Hv [Hx Hget]]]]|[Hnone [Hget|Hget]]].
  - rewrite (bind_ok (lift (py_getitem_str _ _)) _ w x) by (unfold lift; rewrite Hget; reflexivity).
    rewrite (bind_ok _ _ _ _ Hrun), (bind_ok (lift (Leak.deref (Some D))) _ w D eq_refl).
    split.
    + intros kv' udn Hkv' Hudn. unfold dict_get in Hv. rewrite Hkv' in Hv.
      simpl in Hv. injection Hv as <-. rewrite Hx in Hudn. injection Hudn as <-.
      eexists. split; reflexivity.
    + intros Hno. unfold dict_get in Hv.
      destruct (assoc_get "deviceSettings" (attributes D)) as [p|] eqn:Hp;
        simpl in Hv; [|discriminate].
      subst p. rewrite (Hno kv eq_refl) in Hx. discriminate.
  - rewrite (bind_err (lift (py_getitem_str _ _)) _ w TypeError)
      by (unfold lift; rewrite Hget; reflexivity).
    split; [|left; reflexivity].
    intros kv udn Hkv Hudn. unfold dict_get in Hnone. rewrite Hkv in Hnone.
    rewrite (Hnone kv eq_refl) in Hudn. discriminate.
  - rewrite (bind_err (lift (py_getitem_str _ _)) _ w KeyError)
      by (unfold lift; rewrite Hget; reflexivity).
    split; [|right; reflexivity].
    intros kv udn Hkv Hudn. unfold dict_get in Hnone. rewrite Hkv in Hnone.
    rewrite (Hnone kv eq_refl) in Hudn. discriminate.
Qed.

Lemma leak_device_info_name_witness :
  fst (Leak.device_info "lyric" Samples.sample_str (Samples.leak_world [Samples.dev_leak_bare]))
  = Err TypeError \/
  fst (Leak.device_info "lyric" Samples.sample_str (Samples.leak_world [Samples.dev_leak_bare]))
  = Err KeyError.
Proof.
  apply (proj2 (leak_device_info_name "lyric" Samples.sample_str
                  (Samples.leak_world [Samples.dev_leak_bare]) Samples.dev_leak_bare
                  ltac:(vm_compute; reflexivity))).
  intros kv H. vm_compute in H. discriminate H.
Defined.

(** C9: when the leak adapter's [device] yields [None], [device_info]
    raises [AttributeError] ([None.device_type]). *)
Theorem leak_device_info_absent_device (DOMAIN : string) (py_str : pyval -> string)
    (w : World Leak.LyricLeakEntity) :
  fst (Leak.device w) = Ok None ->
  fst (Leak.device_info DOMAIN py_str w) = Err AttributeError.
Proof.
  intros HD. pose proof (run_ok _ w _ leak_device_ro HD) as Hrun.
  unfold Leak.device_info. rewrite bind_get, (bind_ok _ _ _ _ Hrun). reflexivity.
Qed.

Lemma leak_device_info_absent_device_witness :
  fst (Leak.device (Samples.leak_world [])) = Ok None /\
  fst (Leak.device_info "lyric" Samples.sample_str (Samples.leak_world [])) = Err AttributeError.
Proof.
  assert (H : fst (Leak.device (Samples.leak_world [])) = Ok None)
    by (vm_compute; reflexivity).
  split; [exact H|].
  exact (leak_device_info_absent_device "lyric" Samples.sample_str _ H).
Defined.

(** ** What the adapters store and what their properties change *)

(** C8, amended: construction stores, besides identifiers, the location
    object itself (base, accessory and leak adapters) and, as receivers of
    the bound [update_thermostat] / [update_fan] methods, the snapshot
    object current at construction (base and accessory adapters); every
    property of every adapter leaves the world it runs on (the
    coordinator's snapshot and all the adapter's stored attributes)
    unchanged, whatever its outcome; of the stored location object,
    [location] and [device] read only its [location_id]. *)
Theorem property_access_frame :
  (forall (coord : Lyric) (L : LyricLocation) (D : LyricDevice) (R : LyricRoom)
          (A : LyricAccessory) (k : string),
     let e := Entity.LyricEntity_init coord L D k in
     let ea := Entity.LyricAccessoryEntity_init coord L D R A k in
     let el := Leak.LyricLeakEntity_init coord L D k in
     Entity._location e = L /\ Entity._update_thermostat e = coord /\
     Entity._update_fan e = coord /\
     Entity.acc_super ea = e /\
     Leak._location el = L) /\
  (forall (E : Type) (HE : Entity.IsLyricEntity E),
     ro (Entity.unique_id (E:=E)) /\ ro (Entity.location (E:=E)) /\
     ro (Entity.device (E:=E))) /\
  ro Entity.device_info /\ ro Entity.room /\ ro Entity.accessory /\
  ro Entity.accessory_device_info /\
  ro Leak.unique_id /\ ro Leak.location /\ ro Leak.device /\
  (forall (DOMAIN : string) (py_str : pyval -> string), ro (Leak.device_info DOMAIN py_str)) /\
  (forall (E : Type) (HE : Entity.IsLyricEntity E) (d : Lyric) (e1 e2 : E),
     location_id (Entity._location (Entity.as_entity e1))
     = location_id (Entity._location (Entity.as_entity e2)) ->
     Entity._mac_id (Entity.as_entity e1) = Entity._mac_id (Entity.as_entity e2) ->
     fst (Entity.location {| data := d; self := e1 |})
     = fst (Entity.location {| data := d; self := e2 |}) /\
     fst (Entity.device {| data := d; self := e1 |})
     = fst (Entity.device {| data := d; self := e2 |})) /\
  (forall (d : Lyric) (e1 e2 : Leak.LyricLeakEntity),
     location_id (Leak._location e1) = location_id (Leak._location e2) ->
     Leak._device_id e1 = Leak._device_id e2 ->
     fst (Leak.location {| data := d; self := e1 |})
     = fst (Leak.location {| data := d; self := e2 |}) /\
     fst (Leak.device {| data := d; self := e1 |})
     = fst (Leak.device {| data := d; self := e2 |})).
Proof.
  split; [intros coord L D R A k; repeat split|].
  split; [intros E HE; split; [|split]; auto with ro_db|].
  split; [exact device_info_ro|].
  split; [exact room_ro|].
  split; [exact accessory_ro|].
  split; [exact accessory_device_info_ro|].
  split; [exact leak_unique_id_ro|].
  split; [exact leak_location_ro|].
  split; [exact leak_device_ro|].
  split; [exact leak_device_info_ro|].
  split.
  - intros E HE d e1 e2 Hlid Hmac.
    rewrite !location_eval, !device_eval. simpl. rewrite Hlid, Hmac. split; reflexivity.
  - intros d e1 e2 Hlid Hdid.
    rewrite !leak_device_eval. simpl. unfold Leak.location, bind, get, lift. simpl.
    rewrite Hlid, Hdid. split; reflexivity.
Qed.

Lemma property_access_frame_witness :
  fst (Entity.device {| data := Samples.snap1; self := Samples.thermostat |})
  = fst (Entity.device {| data := Samples.snap1;
                          self := {| Entity._key := "AA:BB_key";
                                     Entity._location := Samples.loc1_refreshed;
                                     Entity._mac_id := Some "AA:BB";
                                     Entity._update_thermostat := Samples.snap2;
                                     Entity._update_fan := Samples.snap2 |} |}).
Proof.
  destruct property_access_frame as (_ & _ & _ & _ & _ & _ & _ & _ & _ & _ & Hbase & _).
  exact (proj2 (Hbase _ _ Samples.snap1 _ _ eq_refl eq_refl)).
Defined.

(** C8 as stated fails: the adapters do not cache identifiers only.  A
    thermostat adapter built from [snap1] keeps the location object it was
    given (with its device list) and, as the receivers of its bound
    [update_thermostat] / [update_fan] methods, the snapshot object [snap1];
    after the coordinator moves to [snap2] it still holds both, including
    a device the current snapshot no longer has. *)
Lemma adapter_caches_entity_references :
  let w2 := {| data := Samples.snap2; self := Samples.thermostat |} in
  Entity._location (self w2) = Samples.loc1 /\
  In Samples.dev_office (devices (Entity._location (self w2))) /\
  Entity._update_thermostat (self w2) = Samples.snap1 /\
  Entity._update_fan (self w2) = Samples.snap1 /\
  data w2 <> Samples.snap1 /\
  fst (Entity.device w2) = Err KeyError.
Proof.
  simpl. split; [reflexivity|]. split; [left; reflexivity|].
  split; [reflexivity|]. split; [reflexivity|]. split.
  - intros Heq. assert (H : locations_dict Samples.snap2 = locations_dict Samples.snap1)
      by (rewrite Heq; reflexivity).
    assert (H1 : locations_dict Samples.snap2 !! 1%Z = locations_dict Samples.snap1 !! 1%Z)
      by (rewrite H; reflexivity).
    vm_compute in H1. discriminate H1.
  - vm_compute. reflexivity.
Qed.

(** ** Further properties of the adapters *)

Lemma scan_some (did : option string) (devs : list LyricDevice) (D : LyricDevice) :
  Leak.scan did devs = Ok (Some D) ->
  device_id D = did /\
  exists pre post, devs = (pre ++ D :: post)%list /\ Forall (fun b => device_id b <> did) pre.
Proof.
  induction devs as [|b devs IH]; simpl; [discriminate|].
  case_bool_decide as Hb.
  - intros [= <-]. split; [exact Hb|]. exists [], devs. split; [reflexivity|constructor].
  - destruct (py_len (device_id b)); [|discriminate].
    destruct (py_len did); [|discriminate].
    intros Hs. destruct (IH Hs) as [Hid [pre [post [-> Hpre]]]].
    split; [exact Hid|]. exists (b :: pre), post. split; [reflexivity|constructor; assumption].
Qed.

Lemma scan_none (did : option string) (devs : list LyricDevice) :
  Leak.scan did devs = Ok None -> Forall (fun b => device_id b <> did) devs.
Proof.
  induction devs as [|b devs IH]; simpl; [constructor|].
  case_bool_decide as Hb; [discriminate|].
  destruct (py_len (device_id b)); [|discriminate].
  destruct (py_len did); [|discriminate].
  intros Hs. constructor; [exact Hb|exact (IH Hs)].
Qed.

(** X1: when the stored location id is missing from the current snapshot,
    the leak adapter's [location], [device] and [device_info] all raise
    [KeyError]: the "absence" result of [device] does not cover a missing
    location. *)
Theorem leak_location_missing (DOMAIN : string) (py_str : pyval -> string)
    (w : World Leak.LyricLeakEntity) :
  locations_dict (data w) !! location_id (Leak._location (self w)) = None ->
  fst (Leak.location w) = Err KeyError /\
  fst (Leak.device w) = Err KeyError /\
  fst (Leak.device_info DOMAIN py_str w) = Err KeyError.
Proof.
  intros HL.
  assert (Hdev : Leak.device w = (Err KeyError, w)).
  { rewrite leak_device_eval. unfold getitem. rewrite HL. reflexivity. }
  split; [|split].
  - unfold Leak.location, bind, get, lift, getitem. simpl. rewrite HL. reflexivity.
  - rewrite Hdev. reflexivity.
  - unfold Leak.device_info. rewrite bind_get, (bind_err _ _ _ _ Hdev). reflexivity.
Qed.

Lemma leak_location_missing_witness :
  fst (Leak.device_info "lyric" Samples.sample_str
         {| data := Samples.snap1; self := Samples.leak_sensor |}) = Err KeyError.
Proof.
  refine (proj2 (proj2 _)).
  apply (leak_location_missing "lyric" Samples.sample_str
           {| data := Samples.snap1; self := Samples.leak_sensor |}).
  vm_compute. reflexivity.
Defined.

(** X2: when the stored device id is a key of the resolved location's
    [devices_dict], the leak adapter's [device] returns that entry and
    never scans [devices], so a device list holding devices without a
    device id (which would make the scan raise) is harmless. *)
Theorem leak_device_keyed_hit (w : World Leak.LyricLeakEntity) (L : LyricLocation)
    (D : LyricDevice) :
  locations_dict (data w) !! location_id (Leak._location (self w)) = Some L ->
  devices_dict L !! Leak._device_id (self w) = Some D ->
  fst (Leak.device w) = Ok (Some D).
Proof.
  intros HL HD. rewrite leak_device_eval. simpl. unfold getitem. rewrite HL, HD. reflexivity.
Qed.

Lemma leak_device_keyed_hit_witness :
  fst (Leak.device {| data := Samples.leak_snap [Samples.dev_no_device_id];
                      self := {| Leak._key := "hall"; Leak._location := Samples.leak_location [];
                                 Leak._device_id := Some "CC:DD" |} |})
  = Ok (Some Samples.dev_no_device_id).
Proof.
  apply (leak_device_keyed_hit _ (Samples.leak_location [Samples.dev_no_device_id]));
    vm_compute; reflexivity.
Defined.

(** X3: whatever the leak adapter's [device] returns comes from the
    resolved location [L]: a device [D] is either [L.devices_dict[id]] or,
    when that key is missing, the first device of [L.devices] whose
    [device_id] is the stored id; [None] is returned only when the key is
    missing and no device of [L.devices] has the stored id. *)
Theorem leak_device_result_sound (w : World Leak.LyricLeakEntity) :
  let lid := location_id (Leak._location (self w)) in
  let did := Leak._device_id (self w) in
  (forall D, fst (Leak.device w) = Ok (Some D) ->
     exists L, locations_dict (data w) !! lid = Some L /\
       (devices_dict L !! did = Some D \/
        (devices_dict L !! did = None /\ device_id D = did /\
         exists pre post, devices L = (pre ++ D :: post)%list /\
                          Forall (fun b => device_id b <> did) pre))) /\
  (fst (Leak.device w) = Ok None ->
     exists L, locations_dict (data w) !! lid = Some L /\
       devices_dict L !! did = None /\ Forall (fun b => device_id b <> did) (devices L)).
Proof.
  intros lid did. rewrite leak_device_eval. simpl. unfold getitem. fold lid did.
  destruct (locations_dict (data w) !! lid) as [L|]; [|split; discriminate].
  destruct (devices_dict L !! did) as [D0|] eqn:HD.
  - split; [|discriminate]. intros D [= <-]. exists L. split; [reflexivity|left; exact HD].
  - split.
    + intros D Hs. destruct (scan_some _ _ _ Hs) as [Hid Hpos].
      exists L. split; [reflexivity|right; auto].
    + intros Hs. exists L. split; [reflexivity|]. split; [exact HD|]. exact (scan_none _ _ Hs).
Qed.

Lemma leak_device_result_sound_witness :
  exists L, locations_dict (Samples.leak_snap []) !! 7%Z = Some L /\
    devices_dict L !! Some "d1" = None /\ Forall (fun b => device_id b <> Some "d1") (devices L).
Proof.
  exact (proj2 (leak_device_result_sound (Samples.leak_world [])) ltac:(vm_compute; reflexivity)).
Defined.

(** X4: when the leak adapter's [device] resolves to [D] and [D]'s
    attributes hold a "deviceSettings" dict with a "userDefinedName"
    value [udn], [device_info] is exactly: identifiers [{(DOMAIN, stored
    device id)}], no connections, manufacturer "Honeywell", model
    [D.device_type], name "{udn} {D.device_type}", no via_device. *)
Theorem leak_device_info_descriptor (DOMAIN : string) (py_str : pyval -> string)
    (w : World Leak.LyricLeakEntity) (D : LyricDevice) kv udn :
  fst (Leak.device w) = Ok (Some D) ->
  assoc_get "deviceSettings" (attributes D) = Some (PDict kv) ->
  assoc_get "userDefinedName" kv = Some udn ->
  fst (Leak.device_info DOMAIN py_str w)
  = Ok {| identifiers := [(DOMAIN, Leak._device_id (self w))];
          connections := None;
          manufacturer := "Honeywell";
          model := device_type D;
          di_name := py_str udn ++ " " ++ fmt_opt (device_type D);
          via_device := None |}.
Proof.
  intros HD Hkv Hudn. pose proof (run_ok _ w _ leak_device_ro HD) as Hrun.
  unfold Leak.device_info. rewrite bind_get, (bind_ok _ _ _ _ Hrun),
    (bind_ok (lift (Leak.deref (Some D))) _ w D eq_refl), (bind_ok _ _ _ _ Hrun),
    (bind_ok (lift (Leak.deref (Some D))) _ w D eq_refl).
  rewrite (bind_ok (lift (py_getitem_str _ _)) _ w udn)
    by (unfold lift, dict_get; rewrite Hkv; simpl; rewrite Hudn; reflexivity).
  rewrite (bind_ok _ _ _ _ Hrun), (bind_ok (lift (Leak.deref (Some D))) _ w D eq_refl).
  reflexivity.
Qed.

Lemma leak_device_info_descriptor_witness :
  fst (Leak.device_info "lyric" Samples.sample_str (Samples.leak_world [Samples.dev_leak]))
  = Ok {| identifiers := [("lyric", Some "d1")]; connections := None;
          manufacturer := "Honeywell"; model := Some "Water Leak Detector";
          di_name := Samples.sample_str (PStr "Basement") ++ " " ++ "Water Leak Detector";
          via_device := None |}.
Proof.
  exact (leak_device_info_descriptor "lyric" Samples.sample_str
           (Samples.leak_world [Samples.dev_leak]) Samples.dev_leak
           [("userDefinedName", PStr "Basement")] (PStr "Basement")
           ltac:(vm_compute; reflexivity) eq_refl eq_refl).
Defined.

(** X5: the descriptors raise whatever the lookup they depend on raises:
    [LyricDeviceEntity.device_info] re-raises an exception of [device];
    [LyricAccessoryEntity.accessory] and [device_info] re-raise an
    exception of [room]; [LyricLeakEntity.device_info] re-raises an
    exception of [device]. *)
Theorem descriptors_propagate_lookup_errors (DOMAIN : string) (py_str : pyval -> string) :
  (forall (w : World Entity.LyricDeviceEntity) (e : exc),
     fst (Entity.device w) = Err e -> fst (Entity.device_info w) = Err e) /\
  (forall (w : World Entity.LyricAccessoryEntity) (e : exc),
     fst (Entity.room w) = Err e ->
     fst (Entity.accessory w) = Err e /\ fst (Entity.accessory_device_info w) = Err e) /\
  (forall (w : World Leak.LyricLeakEntity) (e : exc),
     fst (Leak.device w) = Err e -> fst (Leak.device_info DOMAIN py_str w) = Err e).
Proof.
  split; [|split].
  - intros w e He. unfold Entity.device_info.
    rewrite bind_get, (bind_err _ _ _ _ (run_err _ w e device_ro He)). reflexivity.
  - intros w e He. pose proof (run_err _ w e room_ro He) as Hrun. split.
    + unfold Entity.accessory. rewrite (bind_err _ _ _ _ Hrun). reflexivity.
    + unfold Entity.accessory_device_info. rewrite bind_get, (bind_err _ _ _ _ Hrun).
      reflexivity.
  - intros w e He. unfold Leak.device_info.
    rewrite bind_get, (bind_err _ _ _ _ (run_err _ w e leak_device_ro He)). reflexivity.
Qed.

Lemma descriptors_propagate_lookup_errors_witness :
  fst (Entity.device_info {| data := Samples.snap2; self := Samples.thermostat |}) = Err KeyError.
Proof.
  apply (proj1 (descriptors_propagate_lookup_errors "lyric" Samples.sample_str)).
  vm_compute. reflexivity.
Defined.

Lemma NoDup_map_same_key {A B} (f : A -> B) (l : list A) (a b : A) :
  NoDup (map f l) -> In a l -> In b l -> f a = f b -> a = b.
Proof.
  induction l as [|x l IH]; simpl; [contradiction|].
  intros Hnd Ha Hb Hf. inversion Hnd as [|? ? Hx Hnd']; subst.
  destruct Ha as [<-|Ha], Hb as [<-|Hb]; auto.
  - exfalso. apply Hx. rewrite Hf. apply list_elem_of_In, in_map. exact Hb.
  - exfalso. apply Hx. rewrite <- Hf. apply list_elem_of_In, in_map. exact Ha.
Qed.

(** X6: an accessory adapter built from objects that the snapshot holds
    resolves back to them: if the snapshot maps the location's id to the
    location, the location maps the device's MAC id to the device,
    [rooms_dict[mac][room.id]] is the room, and the accessory is in the
    room's list and no other accessory of the room has its id, then
    [location], [device], [room] and [accessory] return exactly those
    objects. *)
Theorem accessory_init_resolves (d : Lyric) (L : LyricLocation) (D : LyricDevice)
    (R : LyricRoom) (A : LyricAccessory) (k : string) (by_room : gmap string LyricRoom) :
  locations_dict d !! location_id L = Some L ->
  devices_dict L !! mac_id D = Some D ->
  rooms_dict d !! mac_id D = Some by_room ->
  by_room !! room_ident R = Some R ->
  In A (accessories R) ->
  (forall B, In B (accessories R) -> accessory_ident B = accessory_ident A -> B = A) ->
  let w := {| data := d; self := Entity.LyricAccessoryEntity_init d L D R A k |} in
  fst (Entity.location w) = Ok L /\ fst (Entity.device w) = Ok D /\
  fst (Entity.room w) = Ok R /\ fst (Entity.accessory w) = Ok A.
Proof.
  intros HL HD Hm Hr HA Hnd w.
  assert (HR : fst (Entity.room w) = Ok R).
  { rewrite room_eval. simpl. unfold getitem. rewrite Hm. simpl. rewrite Hr. reflexivity. }
  split; [|split; [|split]].
  - rewrite location_eval. simpl. unfold getitem. rewrite HL. reflexivity.
  - rewrite device_eval. simpl. unfold getitem. rewrite HL. simpl. rewrite HD. reflexivity.
  - exact HR.
  - rewrite (accessory_eval w R HR). simpl.
    destruct (next_accessory_match (accessory_ident A) (accessories R)) as [A' HA'];
      [eauto|].
    rewrite HA'. destruct (next_accessory_ok _ _ _ HA') as [Hid [pre [post [Hl _]]]].
    f_equal. apply Hnd; [|exact Hid].
    rewrite Hl. apply in_or_app. right. left. reflexivity.
Qed.

Lemma accessory_init_resolves_witness :
  fst (Entity.accessory {| data := Samples.snap1;
                           self := Entity.LyricAccessoryEntity_init Samples.snap1 Samples.loc1
                                     Samples.dev_office Samples.kitchen Samples.acc2 "k" |})
  = Ok Samples.acc2.
Proof.
  refine (proj2 (proj2 (proj2 (accessory_init_resolves Samples.snap1 Samples.loc1
            Samples.dev_office Samples.kitchen Samples.acc2 "k" {[ "1" := Samples.kitchen ]}
            _ _ _ _ _ _)))).
  - vm_compute. reflexivity.
  - vm_compute. reflexivity.
  - vm_compute. reflexivity.
  - vm_compute. reflexivity.
  - simpl. right. left. reflexivity.
  - simpl. intros B [<-|[<-|[]]] HB; [discriminate HB|reflexivity].
Defined.

(** X7: a leak adapter built from a device of the snapshot's location
    resolves back to it by the fallback scan: if the snapshot maps the
    location's id to the location, the device is in [devices], its
    device id is not a key of [devices_dict], and every device of the
    list has a device id, different from the others, then [device]
    returns that device. *)
Theorem leak_init_resolves (d : Lyric) (L : LyricLocation) (D : LyricDevice) (k : string) :
  locations_dict d !! location_id L = Some L ->
  In D (devices L) ->
  devices_dict L !! device_id D = None ->
  Forall (fun b => device_id b <> None) (devices L) ->
  NoDup (map device_id (devices L)) ->
  fst (Leak.device {| data := d; self := Leak.LyricLeakEntity_init d L D k |}) = Ok (Some D).
Proof.
  intros HL HD Hmiss Hall Hnd.
  assert (Hid : device_id D <> None) by (exact (proj1 (List.Forall_forall _ _) Hall D HD)).
  rewrite (leak_device_when_ids_present {| data := d; self := Leak.LyricLeakEntity_init d L D k |} L HL Hid Hall).
  simpl. rewrite Hmiss.
  destruct (List.find (fun b => bool_decide (device_id b = device_id D)) (devices L))
    as [D'|] eqn:Hf.
  - apply List.find_some in Hf as [HD' Heq]. apply bool_decide_eq_true in Heq.
    f_equal. f_equal. exact (NoDup_map_same_key device_id _ _ _ Hnd HD' HD Heq).
  - exfalso. apply List.find_none with (x := D) in Hf; [|exact HD].
    rewrite bool_decide_eq_true_2 in Hf by reflexivity. discriminate.
Qed.

Lemma leak_init_resolves_witness :
  fst (Leak.device {| data := Samples.leak_snap [Samples.dev_leak];
                      self := Leak.LyricLeakEntity_init (Samples.leak_snap [Samples.dev_leak])
                                (Samples.leak_location [Samples.dev_leak]) Samples.dev_leak "k" |})
  = Ok (Some Samples.dev_leak).
Proof.
  apply leak_init_resolves.
  - vm_compute. reflexivity.
  - left. reflexivity.
  - vm_compute. reflexivity.
  - constructor; [discriminate|constructor].
  - constructor; [|constructor]. intros H. apply list_elem_of_In in H. destruct H.
Defined.

Lemma string_app_cancel_l (s t1 t2 : string) : s ++ t1 = s ++ t2 -> t1 = t2.
Proof. induction s as [|c s IH]; simpl; [auto|]. intros [= H]. exact (IH H). Qed.

(** Splitting "{r}_accessory{a}" at the first underscore. *)
Lemma split_at_accessory (r1 a1 r2 a2 : string) :
  (forall i, String.get i r1 <> Some "_"%char) ->
  (forall i, String.get i r2 <> Some "_"%char) ->
  r1 ++ "_accessory" ++ a1 = r2 ++ "_accessory" ++ a2 -> r1 = r2 /\ a1 = a2.
Proof.
  revert r2. induction r1 as [|c r1 IH]; intros [|c' r2] H1 H2 Heq; simpl in Heq.
  - split; [reflexivity|]. exact (string_app_cancel_l "_accessory" a1 a2 Heq).
  - exfalso. injection Heq as Hc _. apply (H2 0). simpl. rewrite Hc. reflexivity.
  - exfalso. injection Heq as Hc _. apply (H1 0). simpl. rewrite Hc. reflexivity.
  - injection Heq as <- Heq.
    destruct (IH r2 (fun i => H1 (S i)) (fun i => H2 (S i)) Heq) as [-> ->]. auto.
Qed.

(** A successful [LyricDeviceEntity.device_info] comes from a resolved
    device. *)
Lemma device_info_inv (w : World Entity.LyricDeviceEntity) (di : DeviceInfo) :
  fst (Entity.device_info w) = Ok di ->
  exists D, fst (Entity.device w) = Ok D /\
    di = {| identifiers := [(CONNECTION_NETWORK_MAC, Entity._mac_id (self w))];
            connections := Some [(CONNECTION_NETWORK_MAC, Entity._mac_id (self w))];
            manufacturer := "Honeywell"; model := device_model D;
            di_name := fmt_opt (name D) ++ " Thermostat"; via_device := None |}.
Proof.
  unfold Entity.device_info. rewrite bind_get.
  destruct (fst (Entity.device w)) as [D|e] eqn:Hd.
  - pose proof (run_ok _ w D device_ro Hd) as Hrun.
    rewrite (bind_ok _ _ _ _ Hrun), (bind_ok _ _ _ _ Hrun). simpl.
    intros [= <-]. eauto.
  - rewrite (bind_err _ _ _ _ (run_err _ w e device_ro Hd)). discriminate.
Qed.

(** A successful [LyricAccessoryEntity.device_info] comes from a resolved
    room. *)
Lemma accessory_device_info_inv (w : World Entity.LyricAccessoryEntity) (di : DeviceInfo) :
  fst (Entity.accessory_device_info w) = Ok di ->
  exists R, fst (Entity.room w) = Ok R /\
    di = {| identifiers := [(CONNECTION_NETWORK_MAC ++ "_room_accessory",
                             Some (fmt_opt (Entity._mac_id (Entity.acc_super (self w)))
                                   ++ "_room" ++ Entity._room_id (self w)
                                   ++ "_accessory" ++ Entity._accessory_id (self w)))];
            connections := None; manufacturer := "Honeywell"; model := Some "RCHTSENSOR";
            di_name := fmt_opt (room_name R) ++ " Sensor";
            via_device := Some (CONNECTION_NETWORK_MAC,
                                Entity._mac_id (Entity.acc_super (self w))) |}.
Proof.
  unfold Entity.accessory_device_info. rewrite bind_get.
  destruct (fst (Entity.room w)) as [R|e] eqn:Hr.
  - rewrite (bind_ok _ _ _ _ (run_ok _ w R room_ro Hr)). simpl. intros [= <-]. eauto.
  - rewrite (bind_err _ _ _ _ (run_err _ w e room_ro Hr)). discriminate.
Qed.

(** X8: for a thermostat adapter and an accessory adapter built from the
    same device, whenever both descriptors are produced, the accessory's
    [via_device] is the thermostat's registry identifier
    (CONNECTION_NETWORK_MAC, device MAC id), and the two descriptors share
    no identifier (their namespaces differ). *)
Theorem accessory_linked_to_thermostat (coord d : Lyric) (L : LyricLocation)
    (D : LyricDevice) (R : LyricRoom) (A : LyricAccessory) (k k' : string)
    (di1 di2 : DeviceInfo) :
  fst (Entity.device_info {| data := d; self := Entity.LyricEntity_init coord L D k |})
  = Ok di1 ->
  fst (Entity.accessory_device_info
         {| data := d; self := Entity.LyricAccessoryEntity_init coord L D R A k' |}) = Ok di2 ->
  identifiers di1 = [(CONNECTION_NETWORK_MAC, mac_id D)] /\
  via_device di2 = Some (CONNECTION_NETWORK_MAC, mac_id D) /\
  (forall x, In x (identifiers di1) -> ~ In x (identifiers di2)).
Proof.
  intros H1 H2.
  destruct (device_info_inv _ _ H1) as [D' [_ ->]].
  destruct (accessory_device_info_inv _ _ H2) as [R' [_ ->]].
  simpl. split; [reflexivity|]. split; [reflexivity|].
  intros x [<-|[]] [Hx|[]]. injection Hx as Hns _. discriminate Hns.
Qed.

Lemma accessory_linked_to_thermostat_witness :
  via_device {| identifiers := [("mac_room_accessory", Some "AA:BB_room1_accessorya2")];
                connections := None; manufacturer := "Honeywell"; model := Some "RCHTSENSOR";
                di_name := "Kitchen Sensor"; via_device := Some ("mac", Some "AA:BB") |}
  = Some (CONNECTION_NETWORK_MAC, mac_id Samples.dev_office).
Proof.
  refine (proj1 (proj2 (accessory_linked_to_thermostat Samples.snap1 Samples.snap1
            Samples.loc1 Samples.dev_office Samples.kitchen Samples.acc2 "k" "k'"
            {| identifiers := [("mac", Some "AA:BB")]; connections := Some [("mac", Some "AA:BB")];
               manufacturer := "Honeywell"; model := Some "T6";
               di_name := "Office Thermostat"; via_device := None |}
            {| identifiers := [("mac_room_accessory", Some "AA:BB_room1_accessorya2")];
               connections := None; manufacturer := "Honeywell"; model := Some "RCHTSENSOR";
               di_name := "Kitchen Sensor"; via_device := Some ("mac", Some "AA:BB") |} _ _)));
    vm_compute; reflexivity.
Defined.

(** X9: two accessory adapters under the same MAC id whose room ids
    contain no underscore (e.g. numeric room ids) get the same registry
    identifier from [device_info] only when their room ids and accessory
    ids are equal. *)
Theorem accessory_identifier_injective (d1 d2 : Lyric) (e1 e2 : Entity.LyricAccessoryEntity)
    (di1 di2 : DeviceInfo) :
  Entity._mac_id (Entity.acc_super e1) = Entity._mac_id (Entity.acc_super e2) ->
  (forall i, String.get i (Entity._room_id e1) <> Some "_"%char) ->
  (forall i, String.get i (Entity._room_id e2) <> Some "_"%char) ->
  fst (Entity.accessory_device_info {| data := d1; self := e1 |}) = Ok di1 ->
  fst (Entity.accessory_device_info {| data := d2; self := e2 |}) = Ok di2 ->
  identifiers di1 = identifiers di2 ->
  Entity._room_id e1 = Entity._room_id e2 /\ Entity._accessory_id e1 = Entity._accessory_id e2.
Proof.
  intros Hmac Hr1 Hr2 H1 H2 Hid.
  destruct (accessory_device_info_inv _ _ H1) as [R1 [_ ->]].
  destruct (accessory_device_info_inv _ _ H2) as [R2 [_ ->]].
  simpl in Hid. rewrite Hmac in Hid. injection Hid as Hid.
  apply string_app_cancel_l in Hid.
  apply (string_app_cancel_l "_room") in Hid.
  exact (split_at_accessory _ _ _ _ Hr1 Hr2 Hid).
Qed.

Lemma accessory_identifier_injective_witness :
  Entity._room_id (Samples.sensor Samples.acc2) = Entity._room_id (Samples.sensor Samples.acc2) /\
  Entity._accessory_id (Samples.sensor Samples.acc2)
  = Entity._accessory_id (Samples.sensor Samples.acc2).
Proof.
  pose (di := {| identifiers := [("mac_room_accessory", Some "AA:BB_room1_accessorya2")];
                 connections := None; manufacturer := "Honeywell"; model := Some "RCHTSENSOR";
                 di_name := "Kitchen Sensor"; via_device := Some ("mac", Some "AA:BB") |}).
  apply (accessory_identifier_injective Samples.snap1 Samples.snap1
           (Samples.sensor Samples.acc2) (Samples.sensor Samples.acc2) di di eq_refl).
  - intros [|[|i]]; simpl; discriminate.
  - intros [|[|i]]; simpl; discriminate.
  - vm_compute. reflexivity.
  - vm_compute. reflexivity.
  - reflexivity.
Defined.

(** X10: a leak adapter whose stored device id is [None] (built from a
    device without "deviceID"), when the keyed lookup misses, yields
    [None] for an empty device list, the first device when that device
    has no device id either, and otherwise raises [TypeError] at the
    debug call's [len(self._device_id)]. *)
Theorem leak_device_without_stored_id (w : World Leak.LyricLeakEntity) (L : LyricLocation) :
  locations_dict (data w) !! location_id (Leak._location (self w)) = Some L ->
  Leak._device_id (self w) = None ->
  devices_dict L !! None = None ->
  fst (Leak.device w)
  = match devices L with
    | [] => Ok None
    | d :: _ => match device_id d with
                | None => Ok (Some d)
                | Some _ => Err TypeError
                end
    end.
Proof.
  intros HL Hdid Hmiss. rewrite leak_device_eval. simpl. unfold getitem. rewrite HL, Hdid, Hmiss.
  destruct (devices L) as [|d rest]; simpl; [reflexivity|].
  destruct (device_id d); reflexivity.
Qed.

Lemma leak_device_without_stored_id_witness :
  fst (Leak.device {| data := Samples.leak_snap [Samples.dev_leak];
                      self := {| Leak._key := "k"; Leak._location := Samples.leak_location [];
                                 Leak._device_id := None |} |}) = Err TypeError.
Proof.
  rewrite (leak_device_without_stored_id _ (Samples.leak_location [Samples.dev_leak]));
    vm_compute; reflexivity.
Defined.
